(** * nebullvm/optimizers/tvm.py: the Apache TVM optimizer adapter

    A shallow embedding of [ApacheTVMOptimizer] and the properties its
    specification states about it.

    The module is pure orchestration: every interesting computation is a call
    into [os], [torch], [uuid], [onnx] or [tvm].  Those calls are modelled by
    a [World].  The process environment and the hardware are fixed in it; a
    call that draws randomness, reads or writes files or runs the toolchain is
    answered depending on the instant it is made at (the number of external
    calls made so far), so that the same call may end differently when it is
    repeated.  A method of the optimizer is then a function from the instant
    it starts at to its outcome (a value or an exception), the instant it ends
    at and the list of external calls it made, in order.

    The embedding covers the module as loaded with the TVM toolchain
    importable (the [try] branch of the import block; the [except] branch only
    rebinds the two names used in annotations). *)

From Stdlib Require Import ZArith String List Bool Lia DecimalString.
From stdpp Require Import base option list strings pretty gmap.

Local Open Scope string_scope.

(** ** Objects owned by the imported libraries and sibling modules *)

(** The types the module handles without looking inside them. *)
Class Imports := {
  (** [onnx.ModelProto], the value of [onnx.load]. *)
  OnnxModel : Type;
  (** [tvm.IRModule]. *)
  IRModule : Type;
  (** [Dict[str, NDArray]], the parameter mapping of the relay frontend. *)
  NDArrayDict : Type;
  (** [autotvm.task.Task], and [len(task.config_space)]. *)
  Task : Type;
  len_config_space : Task → nat;
  (** The value of [relay.build]. *)
  RuntimeModule : Type;
  (** Exceptions raised inside the libraries. *)
  LibraryError : Type;
  (** [nebullvm.base.DeepLearningFramework], an enumeration. *)
  DeepLearningFramework : Type;
  DeepLearningFramework_eq_dec :: EqDecision DeepLearningFramework;
  DeepLearningFramework_countable :: Countable DeepLearningFramework;
  (** The type of [self.model.parameters]. *)
  NetworkParameters : Type;
  (** The classes stored in [TVM_INFERENCE_LEARNERS] and their instances. *)
  LearnerClass : Type;
  ApacheTVMInferenceLearner : Type;
}.

(** [nebullvm.base.ModelParams]: batch size and the ordered input sizes,
    each a tuple of integers. *)
Record ModelParams := {
  batch_size : Z;
  input_sizes : list (list Z);
}.

(** [tvm.target.Target]; [str] prints the kind followed by the attributes. *)
Record Target := {
  kind : string;
  attrs : string;
}.

Definition str_Target (t : Target) : string := kind t +:+ attrs t.

(** [autotvm.LocalRunner(...)], [autotvm.LocalBuilder(...)],
    [autotvm.measure_option(...)], [autotvm.callback.log_to_file(...)] and
    [XGBTuner(...)] build plain objects from their arguments. *)
Record LocalRunner := {
  number : Z;
  repeat_ : Z;
  timeout : Z;
  min_repeat_ms : Z;
  enable_cpu_cache_flush : bool;
}.

Record LocalBuilder := { build_func : string }.

Record MeasureOption := {
  builder : LocalBuilder;
  runner : LocalRunner;
}.

Inductive Callback := log_to_file (filename : string).

Record XGBTuner `{Imports} := {
  tuner_task : Task;
  loss_type : string;
}.

(** The receiver and keyword arguments of one [tuner_obj.tune(...)]. *)
Record TuneCall `{Imports} := {
  tuner_obj : XGBTuner;
  n_trial : Z;
  early_stopping : Z;
  measure_option : MeasureOption;
  callbacks : list Callback;
}.

(** The entries of [nebullvm.config.AUTO_TVM_TUNING_OPTION] and
    [nebullvm.config.AUTO_TVM_PARAMS] the module reads. *)
Record TuningOption := {
  option_trials : Z;
  option_early_stopping : Z;
}.

Record TvmParams := {
  params_number : Z;
  params_repeat : Z;
  params_timeout : Z;
  params_min_repeat_ms : Z;
}.

(** [self.model] and the optimizer instance. *)
Record Model `{Imports} := {
  parent_library : DeepLearningFramework;
  parameters : NetworkParameters;
}.

Record ApacheTVMOptimizer `{Imports} := { model : Model }.

(** The module-level names imported from the rest of the package. *)
Record Globals `{Imports} := {
  TVM_INFERENCE_LEARNERS : gmap DeepLearningFramework LearnerClass;
  AUTO_TVM_TUNING_OPTION : TuningOption;
  AUTO_TVM_PARAMS : TvmParams;
}.

(** ** Python dictionaries with insertion order *)

(** [d[k] = v]: an existing key keeps its place, a new key goes last. *)
Fixpoint dict_setitem {V} (d : list (string * V)) (k : string) (v : V)
  : list (string * V) :=
  match d with
  | [] => [(k, v)]
  | (k', v') :: d' =>
      if decide (k' = k) then (k, v) :: d' else (k', v') :: dict_setitem d' k v
  end.

(** [{key: value for x in xs}]. *)
Definition dict_comprehension {A V} (f : A → string * V) (xs : list A)
  : list (string * V) :=
  fold_left (λ d x, dict_setitem d (f x).1 (f x).2) xs [].

(** [enumerate(xs, start)]. *)
Fixpoint enumerate_from {A} (start : nat) (xs : list A) : list (nat * A) :=
  match xs with
  | [] => []
  | x :: xs' => (start, x) :: enumerate_from (S start) xs'
  end.

Definition enumerate {A} (xs : list A) : list (nat * A) := enumerate_from 0 xs.

(** [f"{u}_model_records.json"]. *)
Definition tuning_records_name (u : string) : string :=
  u +:+ "_model_records.json".

(** ** Exceptions, external calls and the sequencing of effects *)

Inductive Exc `{Imports} :=
  (** A call that leaves required positional arguments out. *)
  | TypeError (function : string) (missing : list string)
  (** [int] applied to a string that is no integer literal. *)
  | ValueError (literal : string)
  (** Subscripting the learner registry with an absent key. *)
  | KeyError (key : DeepLearningFramework)
  (** Whatever a library raised, passed on as it is. *)
  | LibraryException (e : LibraryError).

Inductive Outcome `{Imports} (A : Type) :=
  | Return (a : A)
  | Raise (e : Exc).
Arguments Return {_ _} a.
Arguments Raise {_ _} e.

(** The external calls the module makes, with their arguments.  The function
    [mod["main"]] of a module is written as the pair of the module and the
    name. *)
Inductive Event `{Imports} :=
  | os_getenv_call (key : string)
  | torch_cuda_is_available_call
  | tvm_target_cuda_call
  | uuid_uuid4_call
  | onnx_load_call (path : string)
  | from_onnx_call (onnx_model : OnnxModel) (shape_dict : list (string * list Z))
  | extract_from_program_call
      (func : IRModule * string) (target : string) (params : NDArrayDict)
  | tune_call (c : TuneCall)
  | apply_history_best_enter (records : string)
  | apply_history_best_exit
  | PassContext_enter (opt_level : Z)
  | PassContext_exit
  | relay_build_call (mod_ : IRModule) (target : string) (params : NDArrayDict)
  | from_runtime_module_call
      (cls : LearnerClass) (network_parameters : NetworkParameters)
      (lib : RuntimeModule) (target_device : string) (input_name : string).

(** What the outside answers.  Where a field takes a [nat] first, that is
    the instant of the call. *)
Record World `{Imports} := {
  (** The builtin [int] on strings; [None] stands for [ValueError]. *)
  int_of_str : string → option Z;
  os_environ : gmap string string;
  torch_cuda_is_available : bool;
  (** The attribute text of the target [tvm.target.cuda()] returns. *)
  tvm_target_cuda_attrs : string;
  (** [str(uuid.uuid4())]. *)
  uuid_uuid4 : nat → string;
  onnx_load : nat → string → LibraryError + OnnxModel;
  relay_frontend_from_onnx :
    nat → OnnxModel → list (string * list Z) →
    LibraryError + (IRModule * NDArrayDict);
  autotvm_task_extract_from_program :
    nat → IRModule * string → string → NDArrayDict → LibraryError + list Task;
  tune : nat → TuneCall → option LibraryError;
  autotvm_apply_history_best : nat → string → option LibraryError;
  relay_build :
    nat → IRModule → string → NDArrayDict → LibraryError + RuntimeModule;
  from_runtime_module :
    nat → LearnerClass → NetworkParameters → RuntimeModule → string → string →
    LibraryError + ApacheTVMInferenceLearner;
}.

(** One execution: how it ended, when, and the calls it made. *)
Record Run `{Imports} (A : Type) := {
  outcome : Outcome A;
  now : nat;
  events : list Event;
}.
Arguments outcome {_ _} r.
Arguments now {_ _} r.
Arguments events {_ _} r.

Definition M `{Imports} (A : Type) : Type := nat → Run A.

Definition ret `{Imports} {A} (a : A) : M A :=
  λ t, {| outcome := Return a; now := t; events := [] |}.

Definition raise `{Imports} {A} (e : Exc) : M A :=
  λ t, {| outcome := Raise e; now := t; events := [] |}.

Definition bind `{Imports} {A B} (m : M A) (k : A → M B) : M B :=
  λ t,
    let r := m t in
    match outcome r with
    | Return a =>
        let r' := k a (now r) in
        {| outcome := outcome r'; now := now r'; events := events r ++ events r' |}
    | Raise e => {| outcome := Raise e; now := now r; events := events r |}
    end.

Declare Scope py_scope.
Delimit Scope py_scope with py.
Notation "x <- m ;; k" := (bind m (λ x, k))
  (at level 100, m at next level, right associativity) : py_scope.
Notation "m ;; k" := (bind m (λ _, k))
  (at level 100, right associativity) : py_scope.
Local Open Scope py_scope.

(** An external call that returns or raises. *)
Definition call `{Imports} {A} (ev : Event) (answer : nat → LibraryError + A)
  : M A :=
  λ t,
    {| outcome := match answer t with
                  | inr a => Return a
                  | inl e => Raise (LibraryException e)
                  end;
       now := S t;
       events := [ev] |}.

(** An external call that cannot raise. *)
Definition query `{Imports} {A} (ev : Event) (answer : nat → A) : M A :=
  λ t, {| outcome := Return (answer t); now := S t; events := [ev] |}.

(** An external call made for its effect only. *)
Definition command `{Imports} (ev : Event) (answer : nat → option LibraryError)
  : M unit :=
  call ev (λ t, match answer t with Some e => inl e | None => inr tt end).

(** [for x in xs: body]: the first exception ends the loop. *)
Fixpoint for_ `{Imports} {A} (xs : list A) (body : A → M unit) : M unit :=
  match xs with
  | [] => ret tt
  | x :: xs' => body x ;; for_ xs' body
  end.

(** [with cm: body], for a context manager whose exit lets exceptions
    through. *)
Definition with_ `{Imports} {A} (enter : M unit) (exit : Event) (body : M A)
  : M A :=
  enter ;;
  λ t,
    let r := body t in
    {| outcome := outcome r; now := S (now r); events := events r ++ [exit] |}.

(** ** The builtins and library calls the module uses *)

Section Methods.
Context `{Imports} (w : World) (g : Globals).

(** [os.getenv(key, default)] with an integer default. *)
Definition os_getenv (key : string) (default : Z) : M (string + Z) :=
  query (os_getenv_call key)
    (λ _, match os_environ w !! key with
          | Some s => inl s
          | None => inr default
          end).

(** [int(v)] for a string or an integer. *)
Definition int (v : string + Z) : M Z :=
  match v with
  | inl s =>
      match int_of_str w s with
      | Some n => ret n
      | None => raise (ValueError s)
      end
  | inr n => ret n
  end.

Definition torch_cuda_is_available_ : M bool :=
  query torch_cuda_is_available_call (λ _, torch_cuda_is_available w).

Definition tvm_target_cuda : M Target :=
  query tvm_target_cuda_call
    (λ _, {| kind := "cuda"; attrs := tvm_target_cuda_attrs w |}).

Definition uuid_uuid4_ : M string := query uuid_uuid4_call (uuid_uuid4 w).

Definition onnx_load_ (path : string) : M OnnxModel :=
  call (onnx_load_call path) (λ t, onnx_load w t path).

Definition relay_frontend_from_onnx_
    (onnx_model : OnnxModel) (shape_dict : list (string * list Z))
  : M (IRModule * NDArrayDict) :=
  call (from_onnx_call onnx_model shape_dict)
    (λ t, relay_frontend_from_onnx w t onnx_model shape_dict).

Definition autotvm_task_extract_from_program_
    (func : IRModule * string) (target : string) (params : NDArrayDict)
  : M (list Task) :=
  call (extract_from_program_call func target params)
    (λ t, autotvm_task_extract_from_program w t func target params).

Definition tune_ (c : TuneCall) : M unit :=
  command (tune_call c) (λ t, tune w t c).

Definition relay_build_
    (mod_ : IRModule) (target : string) (params : NDArrayDict)
  : M RuntimeModule :=
  call (relay_build_call mod_ target params)
    (λ t, relay_build w t mod_ target params).

Definition from_runtime_module_
    (cls : LearnerClass) (network_parameters : NetworkParameters)
    (lib : RuntimeModule) (target_device input_name : string)
  : M ApacheTVMInferenceLearner :=
  call (from_runtime_module_call cls network_parameters lib target_device
          input_name)
    (λ t, from_runtime_module w t cls network_parameters lib target_device
            input_name).

(** [TVM_INFERENCE_LEARNERS[key]]. *)
Definition registry_getitem (key : DeepLearningFramework) : M LearnerClass :=
  match TVM_INFERENCE_LEARNERS g !! key with
  | Some cls => ret cls
  | None => raise (KeyError key)
  end.

(** ** The methods of [ApacheTVMOptimizer] *)

Definition _get_target : M string :=
  v <- os_getenv "TVM_ON_CPU" 0 ;;
  n <- int v ;;
  let force_on_cpu := bool_decide (1 < n)%Z in
  c <- (if negb force_on_cpu then torch_cuda_is_available_ else ret false) ;;
  if c then
    t <- tvm_target_cuda ;;
    ret (str_Target t)
  else
    ret "llvm".

(** The names of the required parameters a call leaves out. *)
Definition missing_arguments
    (onnx_model_path : option string) (model_params : option ModelParams)
  : list string :=
  match onnx_model_path with Some _ => [] | None => ["onnx_model_path"] end
  ++ match model_params with Some _ => [] | None => ["model_params"] end.

Definition shape_dict_of (model_params : ModelParams)
  : list (string * list Z) :=
  dict_comprehension
    (λ '(i, input_size),
       ("input_" +:+ pretty i, batch_size model_params :: input_size))
    (enumerate (input_sizes model_params)).

(** Both parameters are required and positional; [None] is a parameter the
    call site gives no argument for, and binding the arguments fails before
    the body runs. *)
Definition _build_tvm_model
    (onnx_model_path : option string) (model_params : option ModelParams)
  : M (IRModule * NDArrayDict) :=
  match onnx_model_path, model_params with
  | Some onnx_model_path, Some model_params =>
      let shape_dict := shape_dict_of model_params in
      onnx_model <- onnx_load_ onnx_model_path ;;
      r <- relay_frontend_from_onnx_ onnx_model shape_dict ;;
      let '(mod_, params) := r in
      ret (mod_, params)
  | _, _ =>
      raise (TypeError "_build_tvm_model"
               (missing_arguments onnx_model_path model_params))
  end.

Definition _tune_tvm_model
    (target : string) (mod_ : IRModule) (params : NDArrayDict) : M string :=
  u <- uuid_uuid4_ ;;
  let tuning_records := tuning_records_name u in
  let runner :=
    {| number := params_number (AUTO_TVM_PARAMS g);
       repeat_ := params_repeat (AUTO_TVM_PARAMS g);
       timeout := params_timeout (AUTO_TVM_PARAMS g);
       min_repeat_ms := params_min_repeat_ms (AUTO_TVM_PARAMS g);
       enable_cpu_cache_flush := true |} in
  tasks <- autotvm_task_extract_from_program_ (mod_, "main") target params ;;
  for_ (enumerate tasks)
    (λ '(i, task),
       let tuner_obj := {| tuner_task := task; loss_type := "rank" |} in
       tune_
         {| tuner_obj := tuner_obj;
            n_trial :=
              Z.min (option_trials (AUTO_TVM_TUNING_OPTION g))
                    (Z.of_nat (len_config_space task));
            early_stopping := option_early_stopping (AUTO_TVM_TUNING_OPTION g);
            measure_option :=
              {| builder := {| build_func := "default" |};
                 runner := runner |};
            callbacks := [log_to_file tuning_records] |}) ;;
  ret tuning_records.

Definition optimize
    (self : ApacheTVMOptimizer) (onnx_model : string)
    (output_library : DeepLearningFramework) (model_params : ModelParams)
  : M ApacheTVMInferenceLearner :=
  target <- _get_target ;;
  r <- _build_tvm_model None None ;;
  let '(mod_, params) := r in
  tuning_records <- _tune_tvm_model target mod_ params ;;
  lib <- with_ (command (apply_history_best_enter tuning_records)
                  (λ t, autotvm_apply_history_best w t tuning_records))
           apply_history_best_exit
           (with_ (query (PassContext_enter 3) (λ _, tt)) PassContext_exit
              (relay_build_ mod_ target params)) ;;
  cls <- registry_getitem (parent_library (model self)) ;;
  model_ <- from_runtime_module_ cls (parameters (model self)) lib target
              "input" ;;
  ret model_.

End Methods.

(** ** Reading a run *)

(** The [tune] calls among the events, in order. *)
Definition tune_calls `{Imports} (tr : list Event) : list TuneCall :=
  omap (λ ev, match ev with tune_call c => Some c | _ => None end) tr.

(** The tasks those calls tuned. *)
Definition tuned_tasks `{Imports} (tr : list Event) : list Task :=
  (λ c, tuner_task (tuner_obj c)) <$> tune_calls tr.

(** The files a call's callbacks log to. *)
Definition log_files `{Imports} (c : TuneCall) : list string :=
  (λ cb, match cb with log_to_file f => f end) <$> callbacks c.

(** Every file name a run of [_tune_tvm_model] lets out: the one it returns
    and the ones it hands to the tuner. *)
Definition files_of `{Imports} (r : Run string) : list string :=
  match outcome r with Return f => [f] | Raise _ => [] end
  ++ (tune_calls (events r) ≫= log_files).


(** The calls that belong to the parsing step. *)
Definition is_parsing_event `{Imports} (ev : Event) : bool :=
  match ev with
  | onnx_load_call _ | from_onnx_call _ _ => true
  | _ => false
  end.

(** ** A concrete toolchain to run the methods in *)

Module Demo.

(** Frameworks by the value of the enumeration member, models by the path
    they were loaded from, tasks by the size of their configuration
    space. *)
Definition imports : Imports :=
  {| OnnxModel := string;
     IRModule := string;
     NDArrayDict := unit;
     Task := nat;
     len_config_space := λ n, n;
     RuntimeModule := unit;
     LibraryError := string;
     DeepLearningFramework := string;
     NetworkParameters := unit;
     LearnerClass := string;
     ApacheTVMInferenceLearner := string |}.
#[local] Existing Instance imports.

(** Plain decimal literals with an optional minus sign. *)
Definition decimal (s : string) : option Z :=
  Z.of_int <$> DecimalString.NilZero.int_of_string s.

(** A machine with the given environment and GPU, on which the files in
    [files] load, every model has the tasks [tasks], and the tuner
    fails from instant [tuner_breaks] on. *)
Definition world (env : gmap string string) (gpu : bool)
    (files : list string) (tasks : list nat) (tuner_breaks : nat)
  : @World imports :=
  {| int_of_str := decimal;
     os_environ := env;
     torch_cuda_is_available := gpu;
     tvm_target_cuda_attrs := " -keys=cuda,gpu -max_num_threads=1024";
     uuid_uuid4 := λ t, pretty t;
     onnx_load := λ _ path,
       if bool_decide (path ∈ files) then inr path
       else inl "FileNotFoundError";
     relay_frontend_from_onnx := λ _ m _, inr (m, tt);
     autotvm_task_extract_from_program := λ _ _ _ _, inr tasks;
     tune := λ t _,
       if bool_decide (tuner_breaks ≤ t)%nat then Some "tuner failed" else None;
     autotvm_apply_history_best := λ _ _, None;
     relay_build := λ _ _ _ _, inr tt;
     from_runtime_module := λ _ cls _ _ _ _, inr cls |}.

Definition globals : @Globals imports :=
  {| TVM_INFERENCE_LEARNERS :=
       {[ "torch" := "PytorchApacheTVMInferenceLearner";
          "tensorflow" := "TensorflowApacheTVMInferenceLearner" ]};
     AUTO_TVM_TUNING_OPTION :=
       {| option_trials := 10; option_early_stopping := 100 |};
     AUTO_TVM_PARAMS :=
       {| params_number := 10; params_repeat := 1; params_timeout := 10;
          params_min_repeat_ms := 0 |} |}.

Definition optimizer (framework : string) : @ApacheTVMOptimizer imports :=
  {| model := {| parent_library := framework; parameters := tt |} |}.

Definition model_params : ModelParams :=
  {| batch_size := 1; input_sizes := [[3; 224; 224]; [10]]%Z |}.

End Demo.

(** * Properties *)

(** ** Sequencing *)

Lemma bind_run `{Imports} {A B} (m : M A) (k : A → M B) (t : nat) :
  bind m k t
  = match outcome (m t) with
    | Return a =>
        {| outcome := outcome (k a (now (m t)));
           now := now (k a (now (m t)));
           events := events (m t) ++ events (k a (now (m t))) |}
    | Raise e =>
        {| outcome := Raise e; now := now (m t); events := events (m t) |}
    end.
Proof. reflexivity. Qed.

(** ** Target selection *)

Section GetTarget.
Context `{Imports} (w : World).

(** What [_get_target] does once the override has been read as [n]. *)
Lemma get_target_run (t : nat) (v : string + Z) (n : Z) :
  match os_environ w !! "TVM_ON_CPU" with
  | Some s => inl s
  | None => inr 0%Z
  end = v →
  outcome (int w v (S t)) = Return n →
  _get_target w t =
    if bool_decide (1 < n)%Z then
      {| outcome := Return "llvm"; now := S t;
         events := [os_getenv_call "TVM_ON_CPU"] |}
    else if torch_cuda_is_available w then
      {| outcome := Return ("cuda" +:+ tvm_target_cuda_attrs w);
         now := S (S (S t));
         events := [os_getenv_call "TVM_ON_CPU"; torch_cuda_is_available_call;
                    tvm_target_cuda_call] |}
    else
      {| outcome := Return "llvm"; now := S (S t);
         events := [os_getenv_call "TVM_ON_CPU"; torch_cuda_is_available_call] |}.
Proof.
  intros Hv Hn.
  unfold _get_target, bind, os_getenv, query; simpl.
  rewrite Hv.
  destruct v as [s|z]; simpl in *.
  - destruct (int_of_str w s) as [m|]; simpl in *; [|discriminate].
    injection Hn as ->.
    destruct (bool_decide (1 < n)%Z); simpl; [reflexivity|].
    destruct (torch_cuda_is_available w); reflexivity.
  - injection Hn as ->.
    destruct (bool_decide (1 < n)%Z); simpl; [reflexivity|].
    destruct (torch_cuda_is_available w); reflexivity.
Qed.

(** The target string of a GPU starts with the kind of the target, so it is
    never the CPU identifier. *)
Lemma cuda_target_not_llvm (a : string) : "cuda" +:+ a ≠ "llvm".
Proof. discriminate. Qed.

(** C2.  When the [TVM_ON_CPU] variable holds a string that [int] reads as
    an integer strictly greater than 1, [_get_target] returns ["llvm"],
    whether or not a GPU is available; it does not even ask for one. *)
Theorem get_target_override_selects_cpu (t : nat) (s : string) (n : Z) :
  os_environ w !! "TVM_ON_CPU" = Some s →
  int_of_str w s = Some n →
  (1 < n)%Z →
  outcome (_get_target w t) = Return "llvm"
  ∧ events (_get_target w t) = [os_getenv_call "TVM_ON_CPU"].
Proof.
  intros Henv Hint Hn.
  rewrite (get_target_run t (inl s) n).
  - rewrite bool_decide_eq_true_2 by exact Hn. split; reflexivity.
  - rewrite Henv. reflexivity.
  - simpl. rewrite Hint. reflexivity.
Qed.

(** C3.  When the [TVM_ON_CPU] variable is unset, or holds a string that
    [int] reads as an integer not greater than 1, and a CUDA GPU is
    available, [_get_target] returns the string of [tvm.target.cuda()],
    which is not ["llvm"]. *)
Theorem get_target_selects_gpu (t : nat) :
  os_environ w !! "TVM_ON_CPU" = None
  ∨ (∃ s n, os_environ w !! "TVM_ON_CPU" = Some s
            ∧ int_of_str w s = Some n ∧ (n ≤ 1)%Z) →
  torch_cuda_is_available w = true →
  outcome (_get_target w t)
    = Return (str_Target {| kind := "cuda"; attrs := tvm_target_cuda_attrs w |})
  ∧ outcome (_get_target w t) ≠ Return "llvm".
Proof.
  intros Henv Hgpu.
  assert (∃ v n, match os_environ w !! "TVM_ON_CPU" with
                 | Some s => inl s
                 | None => inr 0%Z
                 end = v
                 ∧ outcome (int w v (S t)) = Return n ∧ (n ≤ 1)%Z)
    as (v & n & Hv & Hn & Hle).
  { destruct Henv as [Hnone | (s & n & Hs & Hint & Hle)].
    - exists (inr 0%Z), 0%Z. rewrite Hnone. repeat split; lia.
    - exists (inl s), n. rewrite Hs. simpl. rewrite Hint. repeat split; lia. }
  rewrite (get_target_run t v n Hv Hn).
  rewrite bool_decide_eq_false_2 by lia.
  rewrite Hgpu. simpl. split; [reflexivity|].
  intros Heq. apply (cuda_target_not_llvm (tvm_target_cuda_attrs w)).
  congruence.
Qed.

End GetTarget.

(** ** Dictionaries built by comprehension *)

Section Dict.
Context {V : Type}.
Implicit Types (d : list (string * V)) (k : string) (v : V).

(** Storing under a key the dictionary lacks adds an entry at the end. *)
Lemma dict_setitem_fresh d k v :
  k ∉ d.*1 → dict_setitem d k v = (d ++ [(k, v)])%list.
Proof.
  induction d as [|[k' v'] d IH]; simpl; intros Hk; [reflexivity|].
  apply not_elem_of_cons in Hk as [Hne Hk].
  destruct (decide (k' = k)) as [->|_]; [done|].
  by rewrite IH.
Qed.

Lemma dict_comprehension_from {A} (f : A → string * V) (xs : list A) d :
  NoDup (d.*1 ++ (fst ∘ f <$> xs))%list →
  fold_left (λ d x, dict_setitem d (f x).1 (f x).2) xs d
  = (d ++ (f <$> xs))%list.
Proof.
  revert d. induction xs as [|x xs IH]; intros d Hnd; simpl.
  - by rewrite app_nil_r.
  - simpl in Hnd.
    assert ((f x).1 ∉ d.*1) as Hfresh.
    { apply NoDup_app in Hnd as (_ & Hdisj & _).
      intros Hin. apply (Hdisj _ Hin). left. }
    rewrite dict_setitem_fresh by exact Hfresh.
    rewrite IH.
    + rewrite <- app_assoc. simpl. by destruct (f x).
    + rewrite fmap_app, <- app_assoc. simpl. exact Hnd.
Qed.

(** A comprehension whose keys are pairwise different has one entry per
    element, in the order of the elements. *)
Lemma dict_comprehension_distinct {A} (f : A → string * V) (xs : list A) :
  NoDup (fst ∘ f <$> xs) → dict_comprehension f xs = f <$> xs.
Proof.
  intros Hnd. unfold dict_comprehension.
  by rewrite dict_comprehension_from.
Qed.

End Dict.

Lemma enumerate_from_fmap {A B} (f : nat * A → B) (k : nat) (xs : list A) :
  f <$> enumerate_from k xs = imap (λ i x, f (k + i, x)) xs.
Proof.
  revert k. induction xs as [|x xs IH]; intros k; [reflexivity|].
  simpl. rewrite Nat.add_0_r, IH. f_equal.
  apply imap_ext. intros i y _. simpl. by rewrite Nat.add_succ_r.
Qed.

Lemma enumerate_from_indices {A} (k : nat) (xs : list A) :
  (enumerate_from k xs).*1 = seq k (length xs).
Proof.
  revert k. induction xs as [|x xs IH]; intros k; simpl; [reflexivity|].
  by rewrite IH.
Qed.

(** ** Parsing the model *)

Section BuildModel.
Context `{Imports} (w : World).

(** The synthetic input names are pairwise different. *)
Lemma input_name_inj : Inj (=) (=) (λ i : nat, "input_" +:+ pretty i).
Proof.
  intros i j Heq. apply (inj (String.app "input_")) in Heq.
  by apply (inj pretty) in Heq.
Qed.

Lemma shape_dict_of_imap (model_params : ModelParams) :
  shape_dict_of model_params
  = imap (λ i input_size,
            ("input_" +:+ pretty i, batch_size model_params :: input_size))
      (input_sizes model_params).
Proof.
  unfold shape_dict_of, enumerate.
  rewrite dict_comprehension_distinct.
  - rewrite enumerate_from_fmap. apply imap_ext. by intros i x _.
  - replace (fst ∘ _ <$> enumerate_from 0 (input_sizes model_params))
      with ((λ i : nat, "input_" +:+ pretty i)
              <$> (enumerate_from 0 (input_sizes model_params)).*1).
    + rewrite enumerate_from_indices.
      pose proof input_name_inj. apply NoDup_fmap_2; [done|apply NoDup_seq].
    + rewrite <- list_fmap_compose. apply list_fmap_ext.
      by intros i [j x] _.
Qed.

(** C9.  For model parameters with batch size [b] and input sizes
    [s_0 .. s_(n-1)], the shape dictionary [_build_tvm_model] builds has
    exactly [n] entries, the [i]-th with key ["input_i"] and value
    [(b, *s_i)], and this dictionary is what the ONNX frontend is called
    with, on the model [onnx.load] returned. *)
Theorem build_tvm_model_shape_dict
    (onnx_model_path : string) (model_params : ModelParams) (t : nat) :
  let shape_dict := shape_dict_of model_params in
  length shape_dict = length (input_sizes model_params)
  ∧ (∀ i : nat,
       shape_dict !! i
       = (λ s_i, ("input_" +:+ pretty i, batch_size model_params :: s_i))
           <$> input_sizes model_params !! i)
  ∧ events (_build_tvm_model w (Some onnx_model_path) (Some model_params) t)
    = onnx_load_call onnx_model_path ::
      match onnx_load w t onnx_model_path with
      | inr onnx_model => [from_onnx_call onnx_model shape_dict]
      | inl _ => []
      end.
Proof.
  intros shape_dict. subst shape_dict.
  rewrite shape_dict_of_imap. split; [|split].
  - apply length_imap.
  - intros i. apply list_lookup_imap.
  - unfold _build_tvm_model, bind, onnx_load_, relay_frontend_from_onnx_, call.
    simpl. rewrite shape_dict_of_imap.
    destruct (onnx_load w t onnx_model_path) as [e|m]; simpl; [reflexivity|].
    by destruct (relay_frontend_from_onnx w (S t) m _) as [e|[mod_ params]].
Qed.

(** When [onnx.load] fails on the path, the parsing step raises that very
    exception and calls nothing else. *)
Lemma build_tvm_model_load_fails
    (onnx_model_path : string) (model_params : ModelParams) (t : nat)
    (e : LibraryError) :
  onnx_load w t onnx_model_path = inl e →
  _build_tvm_model w (Some onnx_model_path) (Some model_params) t
  = {| outcome := Raise (LibraryException e); now := S t;
       events := [onnx_load_call onnx_model_path] |}.
Proof.
  intros Hload.
  unfold _build_tvm_model, bind, onnx_load_, call. simpl.
  by rewrite Hload.
Qed.

End BuildModel.

(** ** Tuning *)

Lemma string_length_append (s1 s2 : string) :
  String.length (s1 +:+ s2) = (String.length s1 + String.length s2)%nat.
Proof.
  induction s1 as [|a s1 IH]; [reflexivity|].
  change (S (String.length (s1 +:+ s2))
          = S (String.length s1 + String.length s2)).
  by rewrite IH.
Qed.

(** Different draws make different file names. *)
Lemma tuning_records_name_inj (u1 u2 : string) :
  tuning_records_name u1 = tuning_records_name u2 → u1 = u2.
Proof.
  unfold tuning_records_name. revert u2.
  induction u1 as [|a u1 IH]; intros [|b u2] Heq.
  - reflexivity.
  - apply (f_equal String.length) in Heq.
    rewrite !string_length_append in Heq. simpl in Heq. lia.
  - apply (f_equal String.length) in Heq.
    rewrite !string_length_append in Heq. simpl in Heq. lia.
  - change (String a (u1 +:+ "_model_records.json")
            = String b (u2 +:+ "_model_records.json")) in Heq.
    injection Heq as -> Heq. f_equal. by apply IH.
Qed.

Section TuneModel.
Context `{Imports} (w : World) (g : Globals).

Lemma tune_calls_tune_call (cs : list TuneCall) :
  tune_calls (tune_call <$> cs) = cs.
Proof.
  induction cs as [|c cs IH]; [reflexivity|].
  change (c :: tune_calls (tune_call <$> cs) = c :: cs). by rewrite IH.
Qed.

Lemma tune_calls_prelude
    (func : IRModule * string) (target : string) (params : NDArrayDict)
    (cs : list TuneCall) :
  tune_calls
    (uuid_uuid4_call :: extract_from_program_call func target params
       :: (tune_call <$> cs))
  = cs.
Proof. exact (tune_calls_tune_call cs). Qed.

Lemma uuid_uuid4_run (t : nat) :
  uuid_uuid4_ w t
  = {| outcome := Return (uuid_uuid4 w t); now := S t;
       events := [uuid_uuid4_call] |}.
Proof. reflexivity. Qed.

Lemma extract_from_program_run
    (func : IRModule * string) (target : string) (params : NDArrayDict)
    (t : nat) :
  autotvm_task_extract_from_program_ w func target params t
  = {| outcome :=
         match autotvm_task_extract_from_program w t func target params with
         | inr tasks => Return tasks
         | inl e => Raise (LibraryException e)
         end;
       now := S t;
       events := [extract_from_program_call func target params] |}.
Proof. reflexivity. Qed.

Lemma tune_run (c : TuneCall) (t : nat) :
  tune_ w c t
  = {| outcome := match tune w t c with
                  | Some e => Raise (LibraryException e)
                  | None => Return tt
                  end;
       now := S t;
       events := [tune_call c] |}.
Proof. unfold tune_, command, call. by destruct (tune w t c). Qed.

(** A loop that makes one [tune] call per task makes the calls in the order
    of the tasks, one instant each, and stops at the first call that raises:
    [n] counts the calls made. *)
Lemma for_tune_run
    (body : nat * Task → M unit) (mk : Task → TuneCall)
    (tasks : list Task) (k t : nat) :
  (∀ i task t', body (i, task) t' = tune_ w (mk task) t') →
  let r := for_ (enumerate_from k tasks) body t in
  ∃ n : nat,
    (n ≤ length tasks)%nat
    ∧ events r = tune_call <$> (mk <$> take n tasks)
    ∧ now r = (t + n)%nat
    ∧ match outcome r with
      | Return _ => n = length tasks
      | Raise _ => True
      end.
Proof.
  intros Hbody.
  revert k t. induction tasks as [|task tasks IH]; intros k t r; subst r.
  - exists 0%nat. cbn. repeat split; lia || reflexivity.
  - cbn [enumerate_from for_ length]. rewrite bind_run, Hbody, tune_run.
    cbn [outcome now events].
    destruct (tune w t (mk task)) as [e|] eqn:Htune; cbn [outcome now events].
    + exists 1%nat. cbn. repeat split; lia || reflexivity.
    + destruct (IH (S k) (S t)) as (n & Hn & Hev & Hnow & Hout).
      exists (S n). rewrite Hev, Hnow. cbn.
      repeat split; [lia|lia|].
      destruct (outcome _); [by rewrite Hout|done].
Qed.

(** A run of [_tune_tvm_model] started at instant [t]: the name is drawn at
    [t], the tasks are extracted at [t + 1], and the tuning loop follows. *)
Lemma tune_tvm_model_run
    (target : string) (mod_ : IRModule) (params : NDArrayDict) (t : nat) :
  let r := _tune_tvm_model w g target mod_ params t in
  let name := tuning_records_name (uuid_uuid4 w t) in
  match
    autotvm_task_extract_from_program w (S t) (mod_, "main") target params
  with
  | inl e =>
      r = {| outcome := Raise (LibraryException e);
             now := S (S t);
             events := [uuid_uuid4_call;
                        extract_from_program_call (mod_, "main") target params] |}
  | inr tasks =>
      ∃ n : nat,
        (n ≤ length tasks)%nat
        ∧ events r
          = uuid_uuid4_call
            :: extract_from_program_call (mod_, "main") target params
            :: (tune_call <$> tune_calls (events r))
        ∧ tune_calls (events r)
          = (λ task,
               {| tuner_obj := {| tuner_task := task; loss_type := "rank" |};
                  n_trial :=
                    Z.min (option_trials (AUTO_TVM_TUNING_OPTION g))
                          (Z.of_nat (len_config_space task));
                  early_stopping :=
                    option_early_stopping (AUTO_TVM_TUNING_OPTION g);
                  measure_option :=
                    {| builder := {| build_func := "default" |};
                       runner :=
                         {| number := params_number (AUTO_TVM_PARAMS g);
                            repeat_ := params_repeat (AUTO_TVM_PARAMS g);
                            timeout := params_timeout (AUTO_TVM_PARAMS g);
                            min_repeat_ms :=
                              params_min_repeat_ms (AUTO_TVM_PARAMS g);
                            enable_cpu_cache_flush := true |} |};
                  callbacks := [log_to_file name] |})
            <$> take n tasks
        ∧ now r = (S (S t) + n)%nat
        ∧ match outcome r with
          | Return f => f = name ∧ n = length tasks
          | Raise _ => True
          end
  end.
Proof.
  intros r name. subst r name.
  unfold _tune_tvm_model. rewrite bind_run, uuid_uuid4_run.
  cbn [outcome now events].
  rewrite bind_run, extract_from_program_run. cbn [outcome now events].
  destruct (autotvm_task_extract_from_program w (S t) (mod_, "main") target
              params) as [e|tasks]; [reflexivity|].
  rewrite bind_run. unfold enumerate.
  edestruct (for_tune_run) as (n & Hn & Hev & Hnow & Hout);
    [|exists n; rewrite Hev, Hnow].
  { intros i task t'. cbn beta iota. reflexivity. }
  destruct (outcome (for_ _ _ _)) eqn:Hres; cbn [outcome now events app ret];
    rewrite ?app_nil_r, tune_calls_prelude; repeat split; try done; lia.
Qed.

(** Case analysis on what the extraction of a run answered. *)
Ltac tune_cases target mod_ params t Hrun :=
  pose proof (tune_tvm_model_run target mod_ params t) as Hrun;
  cbv zeta in Hrun;
  destruct (autotvm_task_extract_from_program w (S t) (mod_, "main") target
              params) as [?e|?tasks].

(** A run takes at least the instant at which it draws the name. *)
Lemma tune_tvm_model_now
    (target : string) (mod_ : IRModule) (params : NDArrayDict) (t : nat) :
  (t < now (_tune_tvm_model w g target mod_ params t))%nat.
Proof.
  tune_cases target mod_ params t Hrun.
  - rewrite Hrun. cbn. lia.
  - destruct Hrun as (n & _ & _ & _ & Hnow & _). lia.
Qed.

(** The only file name a run lets out is the one made from its own draw. *)
Lemma tune_tvm_model_files
    (target : string) (mod_ : IRModule) (params : NDArrayDict) (t : nat) :
  Forall (λ f, f = tuning_records_name (uuid_uuid4 w t))
    (files_of (_tune_tvm_model w g target mod_ params t)).
Proof.
  unfold files_of. tune_cases target mod_ params t Hrun.
  - rewrite Hrun. cbn. constructor.
  - destruct Hrun as (n & _ & _ & Hcalls & _ & Hout).
    apply Forall_app. split.
    + destruct (outcome _); [|constructor].
      destruct Hout as [-> _]. by repeat constructor.
    + rewrite Hcalls. apply Forall_bind, Forall_fmap, Forall_true.
      intros task. cbn. by repeat constructor.
Qed.

(** C8.  In a world whose UUID generator never gives the same value at two
    different instants, two runs of [_tune_tvm_model], the second started
    when the first has ended or later, use different names for their records
    files: each run draws its name afresh, and every file name the first run
    returns or logs to differs from every file name of the second. *)
Theorem tune_tvm_model_names_distinct
    (target1 target2 : string) (mod1 mod2 : IRModule)
    (params1 params2 : NDArrayDict) (t1 t2 : nat) :
  (∀ i j : nat, uuid_uuid4 w i = uuid_uuid4 w j → i = j) →
  let r1 := _tune_tvm_model w g target1 mod1 params1 t1 in
  let r2 := _tune_tvm_model w g target2 mod2 params2 t2 in
  (now r1 ≤ t2)%nat →
  tuning_records_name (uuid_uuid4 w t1) ≠ tuning_records_name (uuid_uuid4 w t2)
  ∧ Forall (λ f, f = tuning_records_name (uuid_uuid4 w t1)) (files_of r1)
  ∧ Forall (λ f, f = tuning_records_name (uuid_uuid4 w t2)) (files_of r2)
  ∧ ∀ f1 f2, f1 ∈ files_of r1 → f2 ∈ files_of r2 → f1 ≠ f2.
Proof.
  intros Hfresh r1 r2 Hseq.
  assert (tuning_records_name (uuid_uuid4 w t1)
          ≠ tuning_records_name (uuid_uuid4 w t2)) as Hne.
  { intros Heq. apply tuning_records_name_inj, Hfresh in Heq.
    pose proof (tune_tvm_model_now target1 mod1 params1 t1). subst r1. lia. }
  pose proof (tune_tvm_model_files target1 mod1 params1 t1) as Hf1.
  pose proof (tune_tvm_model_files target2 mod2 params2 t2) as Hf2.
  repeat split; [exact Hne|exact Hf1|exact Hf2|].
  intros f1 f2 Hin1 Hin2.
  rewrite Forall_forall in Hf1, Hf2.
  rewrite (Hf1 _ Hin1), (Hf2 _ Hin2). exact Hne.
Qed.

End TuneModel.

(** ** The tuning loop: what the tuner answered *)

Section TuningAnswers.
Context `{Imports} (w : World) (g : Globals).

(** The loop again, now with what the tuner answered: every call but the
    last one made returned, and the last one raised exactly when the loop
    did. *)
Lemma for_tune_answers
    (body : nat * Task → M unit) (mk : Task → TuneCall)
    (tasks : list Task) (k t : nat) :
  (∀ i task t', body (i, task) t' = tune_ w (mk task) t') →
  let r := for_ (enumerate_from k tasks) body t in
  ∃ n : nat,
    (n ≤ length tasks)%nat
    ∧ events r = tune_call <$> (mk <$> take n tasks)
    ∧ now r = (t + n)%nat
    ∧ (∀ i task, (S i < n)%nat → tasks !! i = Some task →
                 tune w (t + i) (mk task) = None)
    ∧ match outcome r with
      | Return _ =>
          n = length tasks
          ∧ ∀ i task, tasks !! i = Some task → tune w (t + i) (mk task) = None
      | Raise e =>
          ∃ i task e',
            n = S i ∧ tasks !! i = Some task
            ∧ tune w (t + i) (mk task) = Some e'
            ∧ e = LibraryException e'
      end.
Proof.
  intros Hbody.
  revert k t. induction tasks as [|task tasks IH]; intros k t r; subst r.
  - exists 0%nat. cbn.
    split; [lia|]. split; [reflexivity|]. split; [lia|]. split.
    + intros i task' Hlt. lia.
    + split; [reflexivity|]. intros i task' Hi. by rewrite lookup_nil in Hi.
  - cbn [enumerate_from for_ length]. rewrite bind_run, Hbody, tune_run.
    cbn [outcome now events].
    destruct (tune w t (mk task)) as [e|] eqn:Htune; cbn [outcome now events].
    + exists 1%nat. cbn.
      split; [lia|]. split; [reflexivity|]. split; [lia|]. split.
      * intros i task' Hlt. lia.
      * exists 0%nat, task, e. rewrite Nat.add_0_r. by repeat split.
    + destruct (IH (S k) (S t)) as (n & Hn & Hev & Hnow & Hmid & Hout).
      exists (S n). rewrite Hev, Hnow. cbn.
      split; [lia|]. split; [reflexivity|]. split; [lia|]. split.
      * intros [|i] task' Hlt Hi.
        -- cbn in Hi. injection Hi as <-. by rewrite Nat.add_0_r.
        -- cbn in Hi. rewrite Nat.add_succ_r. apply Hmid; [lia|done].
      * destruct (outcome (for_ _ _ _)) as [[]|e].
        -- destruct Hout as [-> Hall]. split; [reflexivity|].
           intros [|i] task' Hi.
           ++ cbn in Hi. injection Hi as <-. by rewrite Nat.add_0_r.
           ++ cbn in Hi. rewrite Nat.add_succ_r. by apply Hall.
        -- destruct Hout as (i & task' & e' & -> & Hi & Hans & ->).
           exists (S i), task', e'. rewrite Nat.add_succ_r. by repeat split.
Qed.

(** A run whose extraction returned [tasks], read through its [tune] calls:
    the calls are made at the instants [t + 2], [t + 3], ...; all but the last
    returned; the run returns the name when the last returned too, and
    otherwise raises what the last call raised. *)
Lemma tune_tvm_model_answers
    (target : string) (mod_ : IRModule) (params : NDArrayDict) (t : nat)
    (tasks : list Task) :
  autotvm_task_extract_from_program w (S t) (mod_, "main") target params
  = inr tasks →
  let r := _tune_tvm_model w g target mod_ params t in
  let calls := tune_calls (events r) in
  tuned_tasks (events r) = take (length calls) tasks
  ∧ (length calls ≤ length tasks)%nat
  ∧ now r = (S (S t) + length calls)%nat
  ∧ (∀ i c, (S i < length calls)%nat → calls !! i = Some c →
            tune w (S (S t) + i) c = None)
  ∧ match outcome r with
    | Return f =>
        f = tuning_records_name (uuid_uuid4 w t)
        ∧ length calls = length tasks
        ∧ ∀ i c, calls !! i = Some c → tune w (S (S t) + i) c = None
    | Raise e =>
        ∃ c e',
          last calls = Some c
          ∧ tune w (S t + length calls) c = Some e'
          ∧ e = LibraryException e'
    end.
Proof.
  intros Hextract r calls. subst r calls.
  unfold tuned_tasks, _tune_tvm_model. rewrite bind_run, uuid_uuid4_run.
  cbn [outcome now events].
  rewrite bind_run, extract_from_program_run. cbn [outcome now events].
  rewrite Hextract, bind_run. unfold enumerate.
  edestruct (for_tune_answers) as (n & Hn & Hev & Hnow & Hmid & Hout);
    [|rewrite Hev, Hnow].
  { intros i task t'. cbn beta iota. reflexivity. }
  match goal with
  | |- context [tune_call <$> (?mk <$> take n tasks)] =>
      set (calls := mk <$> take n tasks) in *;
      assert (length calls = n) as Hlen
        by (subst calls; rewrite length_fmap, length_take; lia);
      assert (∀ i c, calls !! i = Some c →
                     ∃ task, tasks !! i = Some task ∧ c = mk task) as Hcall
  end.
  { intros i c Hc. subst calls.
    apply list_lookup_fmap_Some in Hc as (task & -> & Hc).
    apply lookup_take_Some in Hc as [Hc _]. by exists task. }
  assert (tuner_task ∘ tuner_obj <$> calls = take n tasks) as Htasks.
  { subst calls. rewrite <- list_fmap_compose. apply list_fmap_id. }
  destruct (outcome (for_ _ _ _)) as [[]|e] eqn:Hres;
    cbn [outcome now events app ret];
    rewrite ?app_nil_r, tune_calls_prelude, Hlen.
  - destruct Hout as [-> Hall].
    split; [exact Htasks|]. split; [lia|]. split; [lia|]. split.
    + intros i c _ Hc. destruct (Hcall i c Hc) as (task & Hi & ->).
      by apply Hall.
    + split; [reflexivity|]. split; [reflexivity|].
      intros i c Hc. destruct (Hcall i c Hc) as (task & Hi & ->).
      by apply Hall.
  - destruct Hout as (i & task & e' & -> & Hi & Hans & ->).
    split; [exact Htasks|]. split; [lia|]. split; [lia|]. split.
    + intros j c Hlt Hc. destruct (Hcall j c Hc) as (task' & Hj & ->).
      by apply Hmid.
    + eexists _, e'. split; [|split; [|reflexivity]].
      * subst calls. rewrite (take_S_r _ _ _ Hi), fmap_app. apply last_snoc.
      * cbn. rewrite <- Hans. f_equal. lia.
Qed.

(** The call for a task is made once the calls before it have returned. *)
Lemma tune_tvm_model_next_call
    (target : string) (mod_ : IRModule) (params : NDArrayDict) (t : nat)
    (tasks : list Task) (i : nat) (task : Task) :
  autotvm_task_extract_from_program w (S t) (mod_, "main") target params
  = inr tasks →
  let calls := tune_calls (events (_tune_tvm_model w g target mod_ params t)) in
  tasks !! i = Some task →
  (∀ j c, (j < i)%nat → calls !! j = Some c → tune w (S (S t) + j) c = None) →
  ∃ c, calls !! i = Some c ∧ tuner_task (tuner_obj c) = task.
Proof.
  intros Hextract calls Hi Hprev.
  pose proof (tune_tvm_model_answers target mod_ params t tasks Hextract)
    as (Htasks & Hlen & _ & _ & Hout).
  cbv zeta in Htasks, Hlen, Hout. fold calls in Htasks, Hlen, Hout.
  assert (i < length calls)%nat as Hlt.
  { destruct (decide (i < length calls)%nat) as [|Hge]; [done|exfalso].
    destruct (outcome _) as [f|e].
    - destruct Hout as (_ & Hall & _).
      apply lookup_lt_Some in Hi. lia.
    - destruct Hout as (c & e' & Hlast & Hraise & _).
      rewrite last_lookup in Hlast.
      assert (length calls ≠ 0%nat) as Hpos.
      { intros Hzero. apply length_zero_iff_nil in Hzero.
        rewrite Hzero in Hlast. discriminate. }
      assert (tune w (S (S t) + pred (length calls)) c = None) as Hnone
        by (apply Hprev; [lia|exact Hlast]).
      assert (tune w (S t + length calls) c
              = tune w (S (S t) + pred (length calls)) c) as Heq
        by (f_equal; lia).
      congruence. }
  destruct (lookup_lt_is_Some_2 calls i Hlt) as [c Hc].
  exists c. split; [exact Hc|].
  assert (tuned_tasks (events (_tune_tvm_model w g target mod_ params t)) !! i
          = Some (tuner_task (tuner_obj c))) as Hti.
  { unfold tuned_tasks. fold calls. by rewrite list_lookup_fmap, Hc. }
  rewrite Htasks, lookup_take_lt, Hi in Hti by exact Hlt. congruence.
Qed.

(** C6.  Every [tune] call of a run of [_tune_tvm_model] has, as its trial
    budget, the smaller of the configured trial count and the size of the
    configuration space of the task it tunes, has the configured early
    stopping threshold, and logs to the records file of the run.  The tuner
    is invoked in this way for every extracted task: the call for a task is
    made as soon as the calls for the tasks before it have returned, so that
    a task goes without its call only when an earlier [tune] call raised. *)
Theorem tune_tvm_model_trial_budget
    (target : string) (mod_ : IRModule) (params : NDArrayDict) (t : nat) :
  let r := _tune_tvm_model w g target mod_ params t in
  let tuning_records := tuning_records_name (uuid_uuid4 w t) in
  let calls := tune_calls (events r) in
  Forall
    (λ c,
       n_trial c
       = Z.min (option_trials (AUTO_TVM_TUNING_OPTION g))
               (Z.of_nat (len_config_space (tuner_task (tuner_obj c))))
       ∧ early_stopping c = option_early_stopping (AUTO_TVM_TUNING_OPTION g)
       ∧ callbacks c = [log_to_file tuning_records])
    calls
  ∧ match
      outcome r,
      autotvm_task_extract_from_program w (S t) (mod_, "main") target params
    with
    | Return _, inr tasks => tuned_tasks (events r) = tasks
    | Return _, inl _ => False
    | Raise _, _ => True
    end
  ∧ match
      autotvm_task_extract_from_program w (S t) (mod_, "main") target params
    with
    | inr tasks =>
        ∀ i task,
          tasks !! i = Some task →
          (∀ j c, (j < i)%nat → calls !! j = Some c →
                  tune w (S (S t) + j) c = None) →
          ∃ c, calls !! i = Some c ∧ tuner_task (tuner_obj c) = task
    | inl _ => calls = []
    end.
Proof.
  intros r tuning_records calls. subst r tuning_records calls.
  pose proof (tune_tvm_model_run w g target mod_ params t) as Hrun.
  pose proof (tune_tvm_model_next_call target mod_ params t) as Hnext.
  cbv zeta in Hrun, Hnext.
  destruct (autotvm_task_extract_from_program w (S t) (mod_, "main") target
              params) as [e|tasks].
  - rewrite Hrun. cbn. by repeat split.
  - destruct Hrun as (n & Hn & _ & Hcalls & _ & Hout).
    split; [|split].
    + rewrite Hcalls. apply Forall_fmap, Forall_true. intros task. by cbn.
    + unfold tuned_tasks. rewrite Hcalls.
      destruct (outcome _); [|done].
      destruct Hout as [_ ->].
      rewrite <- list_fmap_compose, firstn_all. apply list_fmap_id.
    + intros i task Hi Hprev. exact (Hnext tasks i task eq_refl Hi Hprev).
Qed.

(** C7.  A run of [_tune_tvm_model] draws the name of the records file,
    extracts the tasks and then does nothing but tune, one call after the
    other at consecutive instants, in the order of the extraction: the tasks
    tuned are an initial segment of the extracted tasks, and every call logs
    to the one records file.  No task is skipped: every call but the last
    one made returned; a run raises only what its last [tune] call raised;
    and a run none of whose [tune] calls raised has tuned all the tasks and
    returns the name of the records file. *)
Theorem tune_tvm_model_sequential
    (target : string) (mod_ : IRModule) (params : NDArrayDict) (t : nat) :
  let r := _tune_tvm_model w g target mod_ params t in
  let tuning_records := tuning_records_name (uuid_uuid4 w t) in
  let calls := tune_calls (events r) in
  match
    autotvm_task_extract_from_program w (S t) (mod_, "main") target params
  with
  | inr tasks =>
      events r
      = uuid_uuid4_call
        :: extract_from_program_call (mod_, "main") target params
        :: (tune_call <$> calls)
      ∧ tuned_tasks (events r) `prefix_of` tasks
      ∧ now r = (S (S t) + length (tuned_tasks (events r)))%nat
      ∧ Forall (λ c, log_files c = [tuning_records]) calls
      ∧ (∀ i c, (S i < length calls)%nat → calls !! i = Some c →
                tune w (S (S t) + i) c = None)
      ∧ match outcome r with
        | Return f =>
            f = tuning_records ∧ tuned_tasks (events r) = tasks
            ∧ ∀ i c, calls !! i = Some c → tune w (S (S t) + i) c = None
        | Raise e =>
            ∃ c e',
              last calls = Some c
              ∧ tune w (now r - 1) c = Some e'
              ∧ e = LibraryException e'
        end
      ∧ ((∀ i c, calls !! i = Some c → tune w (S (S t) + i) c = None) →
         outcome r = Return tuning_records ∧ tuned_tasks (events r) = tasks)
  | inl e =>
      outcome r = Raise (LibraryException e) ∧ calls = []
  end.
Proof.
  intros r tuning_records calls. subst r tuning_records calls.
  pose proof (tune_tvm_model_run w g target mod_ params t) as Hrun.
  pose proof (tune_tvm_model_answers target mod_ params t) as Hans.
  cbv zeta in Hrun, Hans.
  destruct (autotvm_task_extract_from_program w (S t) (mod_, "main") target
              params) as [e|tasks].
  - rewrite Hrun. by cbn.
  - destruct Hrun as (n & Hn & Hev & Hcalls & _ & _).
    destruct (Hans tasks eq_refl) as (Htasks & Hlen & Hnow & Hmid & Hout).
    assert (length (tuned_tasks
                      (events (_tune_tvm_model w g target mod_ params t)))
            = length (tune_calls
                        (events (_tune_tvm_model w g target mod_ params t))))
      as Hsame by (unfold tuned_tasks; apply length_fmap).
    assert (match outcome (_tune_tvm_model w g target mod_ params t) with
            | Return f =>
                f = tuning_records_name (uuid_uuid4 w t)
                ∧ tuned_tasks (events (_tune_tvm_model w g target mod_ params t))
                  = tasks
                ∧ ∀ i c,
                    tune_calls
                      (events (_tune_tvm_model w g target mod_ params t)) !! i
                    = Some c →
                    tune w (S (S t) + i) c = None
            | Raise e =>
                ∃ c e',
                  last (tune_calls
                          (events (_tune_tvm_model w g target mod_ params t)))
                  = Some c
                  ∧ tune w (now (_tune_tvm_model w g target mod_ params t) - 1)
                      c = Some e'
                  ∧ e = LibraryException e'
            end) as Hend.
    { destruct (outcome _) as [f|e].
      - destruct Hout as (-> & Hall & Hquiet).
        split; [reflexivity|]. split; [|exact Hquiet].
        by rewrite Htasks, Hall, firstn_all.
      - destruct Hout as (c & e' & Hlast & Hraise & ->).
        exists c, e'. split; [exact Hlast|]. split; [|reflexivity].
        rewrite Hnow, <- Hraise. f_equal; lia. }
    split; [exact Hev|].
    split; [rewrite Htasks; apply prefix_take|].
    split; [rewrite Hsame; exact Hnow|].
    split.
    { rewrite Hcalls. apply Forall_fmap, Forall_true. intros task. by cbn. }
    split; [exact Hmid|]. split; [exact Hend|].
    intros Hquiet.
    destruct (outcome _) as [f|e].
    + by destruct Hend as (-> & -> & _).
    + exfalso. destruct Hend as (c & e' & Hlast & Hraise & _).
      rewrite last_lookup in Hlast. rewrite Hnow in Hraise.
      set (calls := tune_calls _) in *.
      assert (length calls ≠ 0%nat) as Hpos.
      { intros Hzero. apply length_zero_iff_nil in Hzero.
        rewrite Hzero in Hlast. discriminate. }
      pose proof (Hquiet _ _ Hlast) as Hnone.
      replace (S (S t) + length calls - 1)%nat
        with (S (S t) + pred (length calls))%nat in Hraise by lia.
      congruence.
Qed.

End TuningAnswers.

(** ** The pipeline *)

Section Optimize.
Context `{Imports} (w : World) (g : Globals).

(** Target selection makes at most its three calls, in this order. *)
Lemma get_target_events (t : nat) :
  events (_get_target w t)
  `prefix_of` [os_getenv_call "TVM_ON_CPU"; torch_cuda_is_available_call;
               tvm_target_cuda_call].
Proof.
  unfold _get_target, bind, os_getenv, int, query, torch_cuda_is_available_,
    tvm_target_cuda, ret, raise.
  cbn [outcome now events].
  destruct (os_environ w !! "TVM_ON_CPU") as [s|]; cbn [outcome now events].
  - destruct (int_of_str w s) as [n|]; cbn [outcome now events].
    + destruct (bool_decide (1 < n)%Z); cbn [outcome now events negb].
      * by exists [torch_cuda_is_available_call; tvm_target_cuda_call].
      * destruct (torch_cuda_is_available w); cbn [outcome now events].
        -- by exists [].
        -- by exists [tvm_target_cuda_call].
    + by exists [torch_cuda_is_available_call; tvm_target_cuda_call].
  - destruct (bool_decide (1 < 0)%Z); cbn [outcome now events negb].
    + by exists [torch_cuda_is_available_call; tvm_target_cuda_call].
    + destruct (torch_cuda_is_available w); cbn [outcome now events].
      * by exists [].
      * by exists [tvm_target_cuda_call].
Qed.

Lemma get_target_events_Forall (P : Event → Prop) (t : nat) :
  P (os_getenv_call "TVM_ON_CPU") →
  P torch_cuda_is_available_call →
  P tvm_target_cuda_call →
  Forall P (events (_get_target w t)).
Proof.
  intros Henv Hgpu Htarget.
  destruct (get_target_events t) as [rest Hrest].
  assert (Forall P (events (_get_target w t) ++ rest)) as Hall.
  { rewrite <- Hrest. by repeat constructor. }
  by apply Forall_app in Hall as [Hall _].
Qed.

(** The whole of [optimize]: it selects the target and then fails to call
    [_build_tvm_model], which is given none of its two arguments. *)
Lemma optimize_run
    (self : ApacheTVMOptimizer) (onnx_model : string)
    (output_library : DeepLearningFramework) (model_params : ModelParams)
    (t : nat) :
  optimize w g self onnx_model output_library model_params t
  = {| outcome :=
         match outcome (_get_target w t) with
         | Return _ =>
             Raise (TypeError "_build_tvm_model"
                      ["onnx_model_path"; "model_params"])
         | Raise e => Raise e
         end;
       now := now (_get_target w t);
       events := events (_get_target w t) |}.
Proof.
  unfold optimize. rewrite bind_run.
  destruct (outcome (_get_target w t)) as [target|e]; [|reflexivity].
  rewrite bind_run. cbn. by rewrite app_nil_r.
Qed.


(** No call of [optimize] reaches [onnx.load] or the ONNX frontend. *)
Lemma optimize_makes_no_parsing_call
    (self : ApacheTVMOptimizer) (onnx_model : string)
    (output_library : DeepLearningFramework) (model_params : ModelParams)
    (t : nat) :
  Forall (λ ev, is_parsing_event ev = false)
    (events (optimize w g self onnx_model output_library model_params t)).
Proof. rewrite optimize_run. by apply get_target_events_Forall. Qed.


(** C10.  Two calls of [optimize] that differ in [output_library] only end
    in the same way, at the same instant, after the same external calls. *)
Theorem optimize_ignores_output_library
    (self : ApacheTVMOptimizer) (onnx_model : string)
    (model_params : ModelParams)
    (output_library1 output_library2 : DeepLearningFramework) (t : nat) :
  optimize w g self onnx_model output_library1 model_params t
  = optimize w g self onnx_model output_library2 model_params t.
Proof. reflexivity. Qed.

End Optimize.

(** * Further properties of the methods *)

(** ** Target selection: errors, the converse, and the calls made *)

Section TargetSelectionCases.
Context `{Imports} (w : World).

(** An override that [int] rejects ends target selection at once. *)
Lemma get_target_malformed (t : nat) (s : string) :
  os_environ w !! "TVM_ON_CPU" = Some s →
  int_of_str w s = None →
  _get_target w t
  = {| outcome := Raise (ValueError s); now := S t;
       events := [os_getenv_call "TVM_ON_CPU"] |}.
Proof.
  intros Henv Hint.
  unfold _get_target. rewrite bind_run.
  unfold os_getenv, query. cbn [outcome now events].
  rewrite Henv, bind_run. unfold int. rewrite Hint. reflexivity.
Qed.

(** The three ways target selection can go, by the value of the override. *)
Lemma get_target_cases (t : nat) :
  (∃ s, os_environ w !! "TVM_ON_CPU" = Some s ∧ int_of_str w s = None
        ∧ _get_target w t
          = {| outcome := Raise (ValueError s); now := S t;
               events := [os_getenv_call "TVM_ON_CPU"] |})
  ∨ (∃ n : Z,
       (os_environ w !! "TVM_ON_CPU" = None ∧ n = 0%Z
        ∨ ∃ s, os_environ w !! "TVM_ON_CPU" = Some s
               ∧ int_of_str w s = Some n)
       ∧ _get_target w t =
           if bool_decide (1 < n)%Z then
             {| outcome := Return "llvm"; now := S t;
                events := [os_getenv_call "TVM_ON_CPU"] |}
           else if torch_cuda_is_available w then
             {| outcome := Return ("cuda" +:+ tvm_target_cuda_attrs w);
                now := S (S (S t));
                events := [os_getenv_call "TVM_ON_CPU";
                           torch_cuda_is_available_call;
                           tvm_target_cuda_call] |}
           else
             {| outcome := Return "llvm"; now := S (S t);
                events := [os_getenv_call "TVM_ON_CPU";
                           torch_cuda_is_available_call] |}).
Proof.
  destruct (os_environ w !! "TVM_ON_CPU") as [s|] eqn:Henv.
  - destruct (int_of_str w s) as [n|] eqn:Hint.
    + right. exists n. split; [right; by exists s|].
      apply (get_target_run w t (inl s) n); [by rewrite Henv|].
      cbn. by rewrite Hint.
    + left. exists s. by rewrite (get_target_malformed t s).
  - right. exists 0%Z. split; [by left|].
    apply (get_target_run w t (inr 0%Z) 0%Z); [by rewrite Henv|reflexivity].
Qed.

(** X1.  [_get_target] raises exactly when [TVM_ON_CPU] is set to a string
    that [int] rejects; the exception is the [ValueError] of that string, and
    the run has then made the [getenv] call only: neither the GPU nor TVM was
    asked. *)
Theorem get_target_raises_iff (t : nat) (e : Exc) :
  (outcome (_get_target w t) = Raise e
   ↔ ∃ s, os_environ w !! "TVM_ON_CPU" = Some s ∧ int_of_str w s = None
          ∧ e = ValueError s)
  ∧ (outcome (_get_target w t) = Raise e →
     events (_get_target w t) = [os_getenv_call "TVM_ON_CPU"]).
Proof.
  destruct (get_target_cases t)
    as [(s & Henv & Hint & Hrun) | (n & Hn & Hrun)]; rewrite Hrun.
  - cbn [outcome events]. split; [split|done].
    + intros [= <-]. by exists s.
    + intros (s' & Henv' & _ & ->). congruence.
  - assert (∀ r : Run string,
              r = (if bool_decide (1 < n)%Z then
                     {| outcome := Return "llvm"; now := S t;
                        events := [os_getenv_call "TVM_ON_CPU"] |}
                   else if torch_cuda_is_available w then
                     {| outcome := Return ("cuda" +:+ tvm_target_cuda_attrs w);
                        now := S (S (S t));
                        events := [os_getenv_call "TVM_ON_CPU";
                                   torch_cuda_is_available_call;
                                   tvm_target_cuda_call] |}
                   else
                     {| outcome := Return "llvm"; now := S (S t);
                        events := [os_getenv_call "TVM_ON_CPU";
                                   torch_cuda_is_available_call] |}) →
              outcome r ≠ Raise e) as Hret.
    { intros r ->.
      destruct (bool_decide (1 < n)%Z), (torch_cuda_is_available w); done. }
    specialize (Hret _ eq_refl). split; [split|done].
    + done.
    + intros (s & Henv & Hint & _).
      destruct Hn as [[Hnone _] | (s' & Henv' & Hint')]; congruence.
Qed.

(** X2.  The converse of the selection rule: when [_get_target] returns
    anything but ["llvm"], it is the CUDA target string, a GPU is available,
    and the override is unset or reads as an integer not above 1. *)
Theorem get_target_gpu_only_if (t : nat) (target : string) :
  outcome (_get_target w t) = Return target →
  target ≠ "llvm" →
  target = str_Target {| kind := "cuda"; attrs := tvm_target_cuda_attrs w |}
  ∧ torch_cuda_is_available w = true
  ∧ (os_environ w !! "TVM_ON_CPU" = None
     ∨ ∃ s n, os_environ w !! "TVM_ON_CPU" = Some s
              ∧ int_of_str w s = Some n ∧ (n ≤ 1)%Z).
Proof.
  intros Hret Hgpu.
  destruct (get_target_cases t)
    as [(s & Henv & Hint & Hrun) | (n & Hn & Hrun)]; rewrite Hrun in Hret.
  - discriminate.
  - destruct (bool_decide (1 < n)%Z) eqn:Hforce.
    { injection Hret as <-. done. }
    apply bool_decide_eq_false in Hforce.
    destruct (torch_cuda_is_available w).
    + injection Hret as <-. split; [reflexivity|]. split; [reflexivity|].
      destruct Hn as [[Hnone _] | (s & Henv & Hint)]; [by left|].
      right. exists s, n. repeat split; [done|done|lia].
    + injection Hret as <-. done.
Qed.

(** X3.  The calls of target selection: the first is always the [getenv];
    [torch.cuda.is_available()] is called only when the override does not
    force the CPU, and [tvm.target.cuda()] only on a machine with a GPU. *)
Theorem get_target_call_discipline (t : nat) :
  head (events (_get_target w t)) = Some (os_getenv_call "TVM_ON_CPU")
  ∧ (torch_cuda_is_available_call ∈ events (_get_target w t) →
     ¬ ∃ s n, os_environ w !! "TVM_ON_CPU" = Some s
              ∧ int_of_str w s = Some n ∧ (1 < n)%Z)
  ∧ (tvm_target_cuda_call ∈ events (_get_target w t) →
     torch_cuda_is_available w = true).
Proof.
  destruct (get_target_cases t)
    as [(s & Henv & Hint & Hrun) | (n & Hn & Hrun)]; rewrite Hrun.
  - cbn [events]. split; [reflexivity|]. split.
    + intros Hin. apply list_elem_of_singleton in Hin. discriminate.
    + intros Hin. apply list_elem_of_singleton in Hin. discriminate.
  - destruct (bool_decide (1 < n)%Z) eqn:Hforce.
    + cbn [events]. split; [reflexivity|]. split.
      * intros Hin. apply list_elem_of_singleton in Hin. discriminate.
      * intros Hin. apply list_elem_of_singleton in Hin. discriminate.
    + apply bool_decide_eq_false in Hforce.
      assert (¬ ∃ s n', os_environ w !! "TVM_ON_CPU" = Some s
                        ∧ int_of_str w s = Some n' ∧ (1 < n')%Z) as Hfree.
      { intros (s & n' & Henv & Hint & Hlt).
        destruct Hn as [[Hnone _] | (s' & Henv' & Hint')]; [congruence|].
        assert (n' = n) by congruence. lia. }
      destruct (torch_cuda_is_available w); cbn [events].
      * by repeat split.
      * split; [reflexivity|]. split; [done|].
        intros Hin. apply elem_of_cons in Hin as [Hin|Hin]; [discriminate|].
        apply list_elem_of_singleton in Hin. discriminate.
Qed.

End TargetSelectionCases.

(** ** The shape dictionary as a finite map *)

Lemma shape_dict_keys (model_params : ModelParams) :
  (shape_dict_of model_params).*1
  = (λ i : nat, "input_" +:+ pretty i)
      <$> seq 0 (length (input_sizes model_params)).
Proof.
  rewrite shape_dict_of_imap, fmap_imap, <- imap_seq_0.
  apply imap_ext. by intros i x _.
Qed.

(** X4.  The keys of the shape dictionary are pairwise different, so no
    input overwrites another: read as a finite map it has one binding per
    input, it sends ["input_i"] to [(b, *s_i)] for every position [i] of
    [input_sizes], and it has no binding for ["input_i"] beyond them. *)
Theorem shape_dict_lookup_by_name (model_params : ModelParams) :
  let shape_dict : gmap string (list Z) :=
    list_to_map (shape_dict_of model_params) in
  NoDup (shape_dict_of model_params).*1
  ∧ size shape_dict = length (input_sizes model_params)
  ∧ ∀ i : nat,
      shape_dict !! ("input_" +:+ pretty i)
      = (λ s_i, batch_size model_params :: s_i)
          <$> input_sizes model_params !! i.
Proof.
  intros shape_dict. subst shape_dict.
  assert (NoDup (shape_dict_of model_params).*1) as Hnd.
  { rewrite shape_dict_keys. pose proof input_name_inj.
    apply NoDup_fmap_2; [done|apply NoDup_seq]. }
  split; [exact Hnd|]. split.
  - rewrite map_size_list_to_map by exact Hnd.
    rewrite shape_dict_of_imap. apply length_imap.
  - intros i.
    destruct (input_sizes model_params !! i) as [s_i|] eqn:Hi; cbn.
    + apply elem_of_list_to_map_1; [exact Hnd|].
      rewrite shape_dict_of_imap. apply list_elem_of_lookup. exists i.
      by rewrite list_lookup_imap, Hi.
    + apply not_elem_of_list_to_map_1.
      rewrite shape_dict_keys. intros Hin.
      apply list_elem_of_fmap in Hin as (j & Heq & Hj).
      apply input_name_inj in Heq as <-.
      apply elem_of_seq in Hj. apply lookup_ge_None in Hi. lia.
Qed.

(** ** Parsing: what is returned and what is raised *)

Section BuildCases.
Context `{Imports} (w : World).

(** The run of the parsing step on a path and model parameters. *)
Lemma build_tvm_model_run
    (onnx_model_path : string) (model_params : ModelParams) (t : nat) :
  _build_tvm_model w (Some onnx_model_path) (Some model_params) t
  = match onnx_load w t onnx_model_path with
    | inl e =>
        {| outcome := Raise (LibraryException e); now := S t;
           events := [onnx_load_call onnx_model_path] |}
    | inr onnx_model =>
        {| outcome :=
             match
               relay_frontend_from_onnx w (S t) onnx_model
                 (shape_dict_of model_params)
             with
             | inl e => Raise (LibraryException e)
             | inr mod_params => Return mod_params
             end;
           now := S (S t);
           events := [onnx_load_call onnx_model_path;
                      from_onnx_call onnx_model (shape_dict_of model_params)] |}
    end.
Proof.
  unfold _build_tvm_model, bind, onnx_load_, relay_frontend_from_onnx_, call.
  cbn [outcome now events].
  destruct (onnx_load w t onnx_model_path) as [e|m]; [reflexivity|].
  cbn [outcome now events].
  by destruct (relay_frontend_from_onnx w (S t) m _) as [e|[mod_ params]].
Qed.

(** X11.  Called on a path and model parameters, [_build_tvm_model] returns
    exactly the module and the parameter mapping the ONNX frontend returned
    for the loaded model, and raises exactly the exception of [onnx.load]
    or, after a successful load, of the frontend, passed on as it is. *)
Theorem build_tvm_model_outcome_iff
    (onnx_model_path : string) (model_params : ModelParams) (t : nat) :
  let r := _build_tvm_model w (Some onnx_model_path) (Some model_params) t in
  (∀ mod_params,
     outcome r = Return mod_params
     ↔ ∃ onnx_model,
         onnx_load w t onnx_model_path = inr onnx_model
         ∧ relay_frontend_from_onnx w (S t) onnx_model
             (shape_dict_of model_params)
           = inr mod_params)
  ∧ (∀ e,
       outcome r = Raise e
       ↔ ∃ e',
           e = LibraryException e'
           ∧ (onnx_load w t onnx_model_path = inl e'
              ∨ ∃ onnx_model,
                  onnx_load w t onnx_model_path = inr onnx_model
                  ∧ relay_frontend_from_onnx w (S t) onnx_model
                      (shape_dict_of model_params)
                    = inl e')).
Proof.
  intros r. subst r. rewrite build_tvm_model_run.
  destruct (onnx_load w t onnx_model_path) as [e1|m] eqn:Hload;
    cbn [outcome].
  - split.
    + intros mod_params. split; [discriminate|].
      intros (m' & Hm' & _). discriminate.
    + intros e. split.
      * intros [= <-]. exists e1. split; [reflexivity|by left].
      * intros (e' & -> & [Hl | (m' & Hm' & _)]); congruence.
  - destruct (relay_frontend_from_onnx w (S t) m (shape_dict_of model_params))
      as [e2|mod_params'] eqn:Hfront.
    + split.
      * intros mod_params. split; [discriminate|].
        intros (m' & Hm' & Hf'). congruence.
      * intros e. split.
        -- intros [= <-]. exists e2. split; [reflexivity|].
           right. by exists m.
        -- intros (e' & -> & [Hl | (m' & Hm' & Hf')]); congruence.
    + split.
      * intros mod_params. split.
        -- intros [= <-]. by exists m.
        -- intros (m' & Hm' & Hf'). congruence.
      * intros e. split; [discriminate|].
        intros (e' & -> & [Hl | (m' & Hm' & Hf')]); congruence.
Qed.

End BuildCases.

(** ** Tuning: edge cases, failure, and the arguments of the calls *)

Lemma Run_eta `{Imports} {A} (r : Run A) :
  r = {| outcome := outcome r; now := now r; events := events r |}.
Proof. by destruct r. Qed.

Section TuningCases.
Context `{Imports} (w : World) (g : Globals).

(** X5.  When the extraction finds no task, [_tune_tvm_model] still returns
    the name of a records file, having called nothing but [uuid4] and the
    extraction: no tuner ran, so nothing was logged under that name. *)
Theorem tune_tvm_model_no_tasks
    (target : string) (mod_ : IRModule) (params : NDArrayDict) (t : nat) :
  autotvm_task_extract_from_program w (S t) (mod_, "main") target params
  = inr [] →
  _tune_tvm_model w g target mod_ params t
  = {| outcome := Return (tuning_records_name (uuid_uuid4 w t));
       now := S (S t);
       events := [uuid_uuid4_call;
                  extract_from_program_call (mod_, "main") target params] |}.
Proof.
  intros Hextract.
  pose proof (tune_tvm_model_answers w g target mod_ params t [] Hextract)
    as (_ & Hlen & Hnow & _ & Hout).
  pose proof (tune_tvm_model_run w g target mod_ params t) as Hrun.
  cbv zeta in Hrun, Hlen, Hnow, Hout. rewrite Hextract in Hrun.
  destruct Hrun as (n & _ & Hev & _).
  cbn [length] in Hlen.
  assert (tune_calls (events (_tune_tvm_model w g target mod_ params t)) = [])
    as Hnone.
  { apply length_zero_iff_nil. lia. }
  rewrite Hnone in *.
  rewrite (Run_eta (_tune_tvm_model w g target mod_ params t)).
  rewrite Hev, Hnow. cbn [length fmap list_fmap].
  destruct (outcome _) as [f|e].
  - destruct Hout as (-> & _). by rewrite Nat.add_0_r.
  - destruct Hout as (c & e' & Hlast & _). discriminate.
Qed.

(** X6.  There is no retry and no skipping: when the tasks were extracted and
    the run raises, the exception is the one the last [tune] call made
    raised, passed on as it is; every earlier call had returned, and the
    tasks after the failing one were not tuned. *)
Theorem tune_tvm_model_raise_is_last_call
    (target : string) (mod_ : IRModule) (params : NDArrayDict) (t : nat)
    (tasks : list Task) (e : Exc) :
  autotvm_task_extract_from_program w (S t) (mod_, "main") target params
  = inr tasks →
  let r := _tune_tvm_model w g target mod_ params t in
  let calls := tune_calls (events r) in
  outcome r = Raise e →
  (∃ c e',
     last calls = Some c
     ∧ tune w (now r - 1) c = Some e'
     ∧ e = LibraryException e')
  ∧ (∀ i c, (S i < length calls)%nat → calls !! i = Some c →
            tune w (S (S t) + i) c = None)
  ∧ tuned_tasks (events r) = take (length calls) tasks.
Proof.
  intros Hextract r calls Hraise. subst r calls.
  pose proof (tune_tvm_model_answers w g target mod_ params t tasks Hextract)
    as (Htasks & Hlen & Hnow & Hmid & Hout).
  cbv zeta in Htasks, Hlen, Hnow, Hmid, Hout.
  rewrite Hraise in Hout. destruct Hout as (c & e' & Hlast & Hans & ->).
  split; [|by split].
  exists c, e'. split; [exact Hlast|]. split; [|reflexivity].
  rewrite Hnow, <- Hans. f_equal; lia.
Qed.

(** X7.  When the tasks were extracted and the tuner raises at none of the
    instants the loop runs at, the run returns the name made from its draw,
    has tuned every task, and has taken one instant per task after the draw
    and the extraction. *)
Theorem tune_tvm_model_returns_when_tuner_succeeds
    (target : string) (mod_ : IRModule) (params : NDArrayDict) (t : nat)
    (tasks : list Task) :
  autotvm_task_extract_from_program w (S t) (mod_, "main") target params
  = inr tasks →
  (∀ t' c, (S t < t')%nat → (t' < S (S t) + length tasks)%nat →
           tune w t' c = None) →
  let r := _tune_tvm_model w g target mod_ params t in
  outcome r = Return (tuning_records_name (uuid_uuid4 w t))
  ∧ tuned_tasks (events r) = tasks
  ∧ now r = (S (S t) + length tasks)%nat.
Proof.
  intros Hextract Hquiet r. subst r.
  pose proof (tune_tvm_model_answers w g target mod_ params t tasks Hextract)
    as (Htasks & Hlen & Hnow & _ & Hout).
  cbv zeta in Htasks, Hlen, Hnow, Hout.
  destruct (outcome _) as [f|e].
  - destruct Hout as (-> & Hall & _).
    rewrite Htasks, Hnow, Hall. by rewrite firstn_all.
  - destruct Hout as (c & e' & Hlast & Hans & _). exfalso.
    assert (length (tune_calls
                      (events (_tune_tvm_model w g target mod_ params t)))
            ≠ 0%nat) as Hpos.
    { intros Hzero. apply length_zero_iff_nil in Hzero.
      rewrite Hzero in Hlast. discriminate. }
    rewrite Hquiet in Hans; [discriminate|lia|lia].
Qed.

(** X8.  The tuner is never asked for more trials than configured, nor for
    more than the task has configurations; with a non-negative configured
    count the budget is non-negative, and it is 0 for a task whose
    configuration space is empty. *)
Theorem tune_tvm_model_trial_budget_bounds
    (target : string) (mod_ : IRModule) (params : NDArrayDict) (t : nat) :
  Forall
    (λ c,
       let size := Z.of_nat (len_config_space (tuner_task (tuner_obj c))) in
       (n_trial c ≤ option_trials (AUTO_TVM_TUNING_OPTION g))%Z
       ∧ (n_trial c ≤ size)%Z
       ∧ ((0 ≤ option_trials (AUTO_TVM_TUNING_OPTION g))%Z →
          (0 ≤ n_trial c)%Z ∧ (size = 0%Z → n_trial c = 0%Z)))
    (tune_calls (events (_tune_tvm_model w g target mod_ params t))).
Proof.
  pose proof (tune_tvm_model_run w g target mod_ params t) as Hrun.
  cbv zeta in Hrun.
  destruct (autotvm_task_extract_from_program w (S t) (mod_, "main") target
              params) as [e|tasks].
  - rewrite Hrun. cbn. constructor.
  - destruct Hrun as (n & _ & _ & -> & _).
    apply Forall_fmap, Forall_true. intros task. cbn. lia.
Qed.

(** X9.  Every [tune] call of a run is made on an [XGBTuner] with loss type
    ["rank"], with the default local builder and the one runner built from
    [AUTO_TVM_PARAMS] with the CPU cache flush enabled, and with a single
    callback. *)
Theorem tune_tvm_model_fixed_arguments
    (target : string) (mod_ : IRModule) (params : NDArrayDict) (t : nat) :
  Forall
    (λ c,
       loss_type (tuner_obj c) = "rank"
       ∧ measure_option c
         = {| builder := {| build_func := "default" |};
              runner :=
                {| number := params_number (AUTO_TVM_PARAMS g);
                   repeat_ := params_repeat (AUTO_TVM_PARAMS g);
                   timeout := params_timeout (AUTO_TVM_PARAMS g);
                   min_repeat_ms := params_min_repeat_ms (AUTO_TVM_PARAMS g);
                   enable_cpu_cache_flush := true |} |}
       ∧ length (callbacks c) = 1%nat)
    (tune_calls (events (_tune_tvm_model w g target mod_ params t))).
Proof.
  pose proof (tune_tvm_model_run w g target mod_ params t) as Hrun.
  cbv zeta in Hrun.
  destruct (autotvm_task_extract_from_program w (S t) (mod_, "main") target
              params) as [e|tasks].
  - rewrite Hrun. cbn. constructor.
  - destruct Hrun as (n & _ & _ & -> & _).
    apply Forall_fmap, Forall_true. intros task. by cbn.
Qed.

End TuningCases.

(** ** The pipeline never completes *)

Section OptimizeCases.
Context `{Imports} (w : World) (g : Globals).

(** X10.  No call of [optimize] returns a learner, whatever its arguments,
    the registry and the machine: it makes the calls of target selection and
    no other, and it raises either the [ValueError] of target selection or
    the [TypeError] of calling [_build_tvm_model] without its two
    arguments. *)
Theorem optimize_never_returns
    (self : ApacheTVMOptimizer) (onnx_model : string)
    (output_library : DeepLearningFramework) (model_params : ModelParams)
    (t : nat) :
  let r := optimize w g self onnx_model output_library model_params t in
  (∀ learner, outcome r ≠ Return learner)
  ∧ (outcome r
     = Raise (TypeError "_build_tvm_model" ["onnx_model_path"; "model_params"])
     ∨ ∃ s, os_environ w !! "TVM_ON_CPU" = Some s ∧ int_of_str w s = None
            ∧ outcome r = Raise (ValueError s))
  ∧ events r = events (_get_target w t)
  ∧ Forall
      (λ ev, ev = os_getenv_call "TVM_ON_CPU"
             ∨ ev = torch_cuda_is_available_call
             ∨ ev = tvm_target_cuda_call)
      (events r).
Proof.
  intros r. subst r. rewrite optimize_run. cbn [outcome events].
  split; [|split; [|split; [reflexivity|]]].
  - intros learner. by destruct (outcome (_get_target w t)).
  - destruct (get_target_cases w t)
      as [(s & Henv & Hint & Hrun) | (n & Hn & Hrun)]; rewrite Hrun.
    + right. by exists s.
    + left.
      by destruct (bool_decide (1 < n)%Z), (torch_cuda_is_available w).
  - apply get_target_events_Forall; auto.
Qed.

End OptimizeCases.

(** * Runs on the concrete toolchain *)

#[local] Existing Instance Demo.imports.

(** C1.  On a machine where ["model.onnx"] loads and the model parameters
    give one shape per input, [optimize] does not parse the model: its second
    step calls [_build_tvm_model] with no arguments, which raises [TypeError]
    before [onnx.load] is reached, although the same step called on the path
    and the parameters returns the parsed model. *)
Theorem optimize_calls_build_tvm_model_without_arguments :
  let w := Demo.world ∅ false ["model.onnx"] [5; 20; 7]%nat 100 in
  optimize w Demo.globals (Demo.optimizer "torch") "model.onnx" "torch"
    Demo.model_params 0
  = {| outcome :=
         Raise (TypeError "_build_tvm_model"
                  ["onnx_model_path"; "model_params"]);
       now := 2;
       events := [os_getenv_call "TVM_ON_CPU"; torch_cuda_is_available_call] |}
  ∧ _build_tvm_model w (Some "model.onnx") (Some Demo.model_params) 2
    = {| outcome := Return ("model.onnx", tt);
         now := 4;
         events :=
           [onnx_load_call "model.onnx";
            from_onnx_call "model.onnx"
              [("input_0", [1; 3; 224; 224]%Z); ("input_1", [1; 10]%Z)]] |}.
Proof. split; vm_compute; reflexivity. Qed.

(** C5.  For a model whose parent framework is not a key of the registry,
    [optimize] raises the [TypeError] of its second step and not the
    [KeyError] of the registry lookup, which is never reached; the lookup
    itself raises [KeyError] for that framework. *)
Theorem optimize_unknown_framework_raises_type_error :
  let w := Demo.world ∅ false ["model.onnx"] [5; 20; 7]%nat 100 in
  let r :=
    optimize w Demo.globals (Demo.optimizer "numpy") "model.onnx" "numpy"
      Demo.model_params 0 in
  TVM_INFERENCE_LEARNERS Demo.globals !! "numpy" = None
  ∧ outcome r
    = Raise (TypeError "_build_tvm_model" ["onnx_model_path"; "model_params"])
  ∧ outcome r ≠ Raise (KeyError "numpy")
  ∧ outcome (registry_getitem Demo.globals "numpy" 0) = Raise (KeyError "numpy").
Proof.
  repeat split; try (vm_compute; reflexivity).
  vm_compute. discriminate.
Qed.


(** ** Sample runs *)

Example input_name_10 : "input_" +:+ pretty 10%nat = "input_10".
Proof. reflexivity. Qed.

Example shape_dict_of_model_params :
  shape_dict_of Demo.model_params
  = [("input_0", [1; 3; 224; 224]%Z); ("input_1", [1; 10]%Z)].
Proof. vm_compute. reflexivity. Qed.

(** A key that comes twice keeps its first place and its last value. *)
Example dict_comprehension_repeated_key :
  dict_comprehension (λ x : string * nat, x) [("a", 1); ("b", 2); ("a", 3)]%nat
  = [("a", 3); ("b", 2)]%nat.
Proof. vm_compute. reflexivity. Qed.

Example get_target_unset_no_gpu :
  _get_target (Demo.world ∅ false [] [] 0) 0
  = {| outcome := Return "llvm"; now := 2;
       events := [os_getenv_call "TVM_ON_CPU"; torch_cuda_is_available_call] |}.
Proof. vm_compute. reflexivity. Qed.

Example get_target_override_one_gpu :
  outcome (_get_target (Demo.world {[ "TVM_ON_CPU" := "1" ]} true [] [] 0) 0)
  = Return "cuda -keys=cuda,gpu -max_num_threads=1024".
Proof. vm_compute. reflexivity. Qed.

Example get_target_malformed_override :
  _get_target (Demo.world {[ "TVM_ON_CPU" := "yes" ]} true [] [] 0) 0
  = {| outcome := Raise (ValueError "yes"); now := 1;
       events := [os_getenv_call "TVM_ON_CPU"] |}.
Proof. vm_compute. reflexivity. Qed.

Example build_tvm_model_one_argument :
  outcome (_build_tvm_model (Demo.world ∅ false [] [] 0) (Some "model.onnx")
             None 0)
  = Raise (TypeError "_build_tvm_model" ["model_params"]).
Proof. reflexivity. Qed.

(** Three tasks, the tuner failing from instant 3 on: the first task is tuned
    at instant 2, the call for the second raises, the third is not reached. *)
Example tune_tvm_model_tuner_fails :
  let r :=
    _tune_tvm_model (Demo.world ∅ false [] [5; 20; 7]%nat 3) Demo.globals
      "llvm" "model.onnx" tt 0 in
  outcome r = Raise (LibraryException "tuner failed")
  ∧ tuned_tasks (events r) = [5; 20]%nat
  ∧ n_trial <$> tune_calls (events r) = [5; 10]%Z
  ∧ files_of r = ["0_model_records.json"; "0_model_records.json"].
Proof. repeat split; vm_compute; reflexivity. Qed.

Example tune_tvm_model_returns :
  let r :=
    _tune_tvm_model (Demo.world ∅ false [] [5; 20; 7]%nat 100) Demo.globals
      "llvm" "model.onnx" tt 0 in
  outcome r = Return "0_model_records.json"
  ∧ tuned_tasks (events r) = [5; 20; 7]%nat
  ∧ n_trial <$> tune_calls (events r) = [5; 10; 7]%Z
  ∧ now r = 5%nat.
Proof. repeat split; vm_compute; reflexivity. Qed.

(** ** Instances of the conditional statements *)

(** [TVM_ON_CPU=2] on a machine with a GPU. *)
Lemma get_target_override_selects_cpu_witness :
  let w := Demo.world {[ "TVM_ON_CPU" := "2" ]} true [] [] 0 in
  outcome (_get_target w 0) = Return "llvm"
  ∧ events (_get_target w 0) = [os_getenv_call "TVM_ON_CPU"].
Proof.
  intros w.
  apply (get_target_override_selects_cpu w 0 "2" 2);
    [vm_compute; reflexivity | vm_compute; reflexivity | lia].
Defined.

(** [TVM_ON_CPU=1] on a machine with a GPU. *)
Lemma get_target_selects_gpu_witness :
  let w := Demo.world {[ "TVM_ON_CPU" := "1" ]} true [] [] 0 in
  outcome (_get_target w 0)
  = Return "cuda -keys=cuda,gpu -max_num_threads=1024"
  ∧ outcome (_get_target w 0) ≠ Return "llvm".
Proof.
  intros w.
  apply (get_target_selects_gpu w 0); [|reflexivity].
  right. exists "1", 1%Z.
  split; [vm_compute; reflexivity|]. split; [vm_compute; reflexivity|lia].
Defined.


(** Two runs in a row, the first from instant 0 to 5, on a machine whose
    UUID generator prints the instant. *)
Lemma tune_tvm_model_names_distinct_witness :
  let w := Demo.world ∅ false [] [5; 20; 7]%nat 100 in
  let r1 := _tune_tvm_model w Demo.globals "llvm" "first" tt 0 in
  let r2 := _tune_tvm_model w Demo.globals "llvm" "second" tt 5 in
  tuning_records_name (uuid_uuid4 w 0) ≠ tuning_records_name (uuid_uuid4 w 5)
  ∧ Forall (λ f, f = tuning_records_name (uuid_uuid4 w 0)) (files_of r1)
  ∧ Forall (λ f, f = tuning_records_name (uuid_uuid4 w 5)) (files_of r2)
  ∧ ∀ f1 f2, f1 ∈ files_of r1 → f2 ∈ files_of r2 → f1 ≠ f2.
Proof.
  intros w.
  apply (tune_tvm_model_names_distinct w Demo.globals "llvm" "llvm"
           "first" "second" tt tt 0 5).
  - intros i j Heq. exact (inj pretty i j Heq).
  - vm_compute. lia.
Defined.

(** A machine with a GPU and no override. *)
Lemma get_target_gpu_only_if_witness :
  let w := Demo.world ∅ true [] [] 0 in
  "cuda -keys=cuda,gpu -max_num_threads=1024"
  = str_Target {| kind := "cuda"; attrs := tvm_target_cuda_attrs w |}
  ∧ torch_cuda_is_available w = true
  ∧ (os_environ w !! "TVM_ON_CPU" = None
     ∨ ∃ s n, os_environ w !! "TVM_ON_CPU" = Some s
              ∧ int_of_str w s = Some n ∧ (n ≤ 1)%Z).
Proof.
  intros w.
  apply (get_target_gpu_only_if w 0
           "cuda -keys=cuda,gpu -max_num_threads=1024");
    [vm_compute; reflexivity | discriminate].
Defined.

(** A model without tunable tasks. *)
Lemma tune_tvm_model_no_tasks_witness :
  let w := Demo.world ∅ false [] [] 100 in
  _tune_tvm_model w Demo.globals "llvm" "model.onnx" tt 0
  = {| outcome := Return (tuning_records_name (uuid_uuid4 w 0));
       now := 2;
       events := [uuid_uuid4_call;
                  extract_from_program_call ("model.onnx", "main") "llvm" tt] |}.
Proof.
  intros w.
  apply (tune_tvm_model_no_tasks w Demo.globals "llvm" "model.onnx" tt 0).
  reflexivity.
Defined.

(** Three tasks, the tuner failing from instant 3 on. *)
Lemma tune_tvm_model_raise_is_last_call_witness :
  let w := Demo.world ∅ false [] [5; 20; 7]%nat 3 in
  let r := _tune_tvm_model w Demo.globals "llvm" "model.onnx" tt 0 in
  let calls := tune_calls (events r) in
  (∃ c e',
     last calls = Some c
     ∧ tune w (now r - 1) c = Some e'
     ∧ @LibraryException Demo.imports "tuner failed" = LibraryException e')
  ∧ (∀ i c, (S i < length calls)%nat → calls !! i = Some c →
            tune w (2 + i) c = None)
  ∧ tuned_tasks (events r) = take (length calls) [5; 20; 7]%nat.
Proof.
  intros w.
  apply (tune_tvm_model_raise_is_last_call w Demo.globals "llvm" "model.onnx"
           tt 0 [5; 20; 7]%nat (@LibraryException Demo.imports "tuner failed"));
    [reflexivity | vm_compute; reflexivity].
Defined.

(** Three tasks, the tuner failing from instant 100 on only. *)
Lemma tune_tvm_model_returns_when_tuner_succeeds_witness :
  let w := Demo.world ∅ false [] [5; 20; 7]%nat 100 in
  let r := _tune_tvm_model w Demo.globals "llvm" "model.onnx" tt 0 in
  outcome r = Return (tuning_records_name (uuid_uuid4 w 0))
  ∧ tuned_tasks (events r) = [5; 20; 7]%nat
  ∧ now r = 5%nat.
Proof.
  intros w.
  apply (tune_tvm_model_returns_when_tuner_succeeds w Demo.globals "llvm"
           "model.onnx" tt 0 [5; 20; 7]%nat); [reflexivity|].
  intros t' c _ Hlt. cbn in Hlt |- *.
  rewrite bool_decide_eq_false_2; [reflexivity|lia].
Defined.
